(** * kr_publisher: the packaging manifest [setup.py]

    The repository consists of one file, [setup.py], which imports [setup]
    and [find_packages] from setuptools and calls [setup] once with ten
    keyword arguments.  This development embeds that file as a term of a
    small Python fragment (imports, expression statements, calls with
    keywords, string and boolean constants, list displays), gives the
    fragment an evaluator that records every call into an imported library,
    and proves the statements of the specification about what [setup]
    receives. *)

From stdpp Require Import base option list strings gmap.

Local Open Scope string_scope.
Local Open Scope list_scope.

(** ** Syntax of the Python fragment

    Constructor names follow Python's [ast] module. *)

Local Set Warnings "-register-all".

Inductive expr : Type :=
| Str (s : string)
| NameConstant (value : bool)
| Name (id : string)
| List (elts : list expr)
| Call (func : expr) (args : list expr) (keywords : list (string * expr)).

Inductive stmt : Type :=
| ImportFrom (module : string) (names : list string)
| Expr (value : expr).

(** ** The file

    [setup.py], statement by statement and keyword by keyword, in source
    order. *)

Definition find_packages_call : expr := Call (Name "find_packages") [] [].

Definition setup_keywords : list (string * expr) :=
  [ ("name", Str "insights_publisher");
    ("description",
     Str "A package to streamline publication workflows for Knowledge Repo and tie published work to GitHub commits.");
    ("url", Str "https://github.com/CPapadim/insights_publisher");
    ("version", Str "0.1.0");
    ("author", Str "Charalampos Papadimitriou");
    ("author_email", Str "papadimitriou.c@gmail.com");
    ("license", Str "MIT");
    ("packages", find_packages_call);
    ("zip_safe", NameConstant false);
    ("scripts", List [Str "insights_publisher/publisher"]) ].

Definition setup_call : expr := Call (Name "setup") [] setup_keywords.

Definition setup_py : list stmt :=
  [ ImportFrom "setuptools" ["setup"; "find_packages"];
    Expr setup_call ].

(** ** Values, calls into libraries, and the evaluation monad

    A name bound by [from m import n] denotes the object [n] of module [m];
    we keep it symbolic.  Calling it is an event, and what it returns (or
    that it raises, [None]) is decided by the library, which is a parameter
    of the semantics: setuptools is not part of this repository. *)

Inductive value : Type :=
| VStr (s : string)
| VBool (b : bool)
| VList (vs : list value)
| VImported (module name : string).

Record event : Type := Called {
  ev_module : string;
  ev_name : string;
  ev_args : list value;
  ev_kwargs : gmap string value
}.

(** A computation yields the calls it made, in order, and a result unless an
    exception ended it. *)
Definition M (A : Type) : Type := (list event * option A)%type.

Definition raise {A : Type} : M A := ([], None).

#[global] Instance M_ret : MRet M := λ A a, ([], Some a).

#[global] Instance M_bind : MBind M := λ A B k m,
  match m with
  | (t, None) => (t, None)
  | (t, Some a) => let '(t', r) := k a in (t ++ t', r)
  end.

Definition trace {A : Type} (m : M A) : list event := m.1.
Definition result {A : Type} (m : M A) : option A := m.2.

Definition library : Type :=
  string → string → list value → gmap string value → option value.

(** Evaluation of a sequence, left to right. *)
Section Over_lists.
Context {A B : Type} (f : A → M B).

Fixpoint eval_all (l : list A) : M (list B) :=
  match l with
  | [] => mret []
  | a :: l => b ← f a; bs ← eval_all l; mret (b :: bs)
  end.
End Over_lists.

(** Python rejects a call that repeats a keyword when it compiles the file
    ("keyword argument repeated"), before any statement runs. *)
Fixpoint syntax_ok (e : expr) : bool :=
  match e with
  | Str _ | NameConstant _ | Name _ => true
  | List elts => forallb syntax_ok elts
  | Call func args keywords =>
      syntax_ok func && forallb syntax_ok args
      && forallb (λ kw, syntax_ok kw.2) keywords
      && bool_decide (NoDup (keywords.*1))
  end.

Definition stmt_ok (s : stmt) : bool :=
  match s with
  | ImportFrom _ _ => true
  | Expr value => syntax_ok value
  end.

Section Semantics.
Variable lib : library.

Definition call (f : value) (args : list value) (kwargs : gmap string value)
  : M value :=
  match f with
  | VImported m n => ([Called m n args kwargs], lib m n args kwargs)
  | _ => raise
  end.

(** The callee is evaluated first, then the positional arguments, then the
    keyword arguments, each left to right.  A name that is not bound raises,
    and so does calling what is not callable. *)
Fixpoint eval (env : gmap string value) (e : expr) : M value :=
  match e with
  | Str s => mret (VStr s)
  | NameConstant b => mret (VBool b)
  | Name id => match env !! id with Some v => mret v | None => raise end
  | List elts => vs ← eval_all (eval env) elts; mret (VList vs)
  | Call func args keywords =>
      f ← eval env func;
      vs ← eval_all (eval env) args;
      kvs ← eval_all (λ kw, v ← eval env kw.2; mret (kw.1, v)) keywords;
      call f vs (list_to_map kvs)
  end.

(** [from m import n, ...] binds each name; the module is taken to be
    installed and to export them.  An expression statement drops its
    value. *)
Definition exec (env : gmap string value) (s : stmt) : M (gmap string value) :=
  match s with
  | ImportFrom module names =>
      mret (foldl (λ env n, <[n := VImported module n]> env) env names)
  | Expr value => _ ← eval env value; mret env
  end.

Fixpoint exec_all (env : gmap string value) (body : list stmt)
  : M (gmap string value) :=
  match body with
  | [] => mret env
  | s :: body => env' ← exec env s; exec_all env' body
  end.

Definition run (body : list stmt) : M (gmap string value) :=
  if forallb stmt_ok body then exec_all ∅ body else raise.
End Semantics.

(** ** Observing the file and its run *)

(** The modules the file imports from, and the names an expression refers
    to. *)
Definition imported_modules (body : list stmt) : list string :=
  omap (λ s, match s with ImportFrom m _ => Some m | Expr _ => None end) body.

Fixpoint names (e : expr) : list string :=
  match e with
  | Str _ | NameConstant _ => []
  | Name id => [id]
  | List elts => concat (names <$> elts)
  | Call func args keywords =>
      names func ++ concat (names <$> args)
        ++ concat ((λ kw, names kw.2) <$> keywords)
  end.

(** The expression written for keyword [k] in a call. *)
Definition keyword_arg (k : string) (e : expr) : option expr :=
  match e with
  | Call _ _ keywords => (λ r, r.2.2) <$> list_find (λ kw, kw.1 = k) keywords
  | _ => None
  end.

(** Reading the environment takes [os.environ] or [os.getenv], under
    whichever of these names they were imported. *)
Definition environment_names : list string := ["os"; "environ"; "getenv"].

Definition reads_environment (e : expr) : Prop :=
  Exists (λ id, id ∈ environment_names) (names e).

#[global] Instance reads_environment_dec (e : expr) :
  Decision (reads_environment e).
Proof. unfold reads_environment. apply _. Defined.

(** The invocations of setuptools' [setup] among the calls made: positional
    and keyword arguments of each. *)
Definition setup_calls (t : list event)
  : list (list value * gmap string value) :=
  omap (λ ev,
    if bool_decide (ev_module ev = "setuptools" ∧ ev_name ev = "setup")
    then Some (ev_args ev, ev_kwargs ev) else None) t.

(** The keyword arguments [setup] receives when [setup.py] runs, provided it
    is called exactly once and with keywords only. *)
Definition setup_kwargs (lib : library) : option (gmap string value) :=
  match setup_calls (trace (run lib setup_py)) with
  | [([], kwargs)] => Some kwargs
  | _ => None
  end.

(** [find_packages()] returns [pkgs]. *)
Definition finds (lib : library) (pkgs : value) : Prop :=
  lib "setuptools" "find_packages" [] ∅ = Some pkgs.

(** The fields the specification enumerates, as keyword names: name,
    description, URL, version, author (with the author's e-mail), license,
    the package list and the script reference. *)
Definition enumerated_fields : list string :=
  [ "name"; "description"; "url"; "version"; "author"; "author_email";
    "license"; "packages"; "scripts" ].

(** [setup] is called with keywords among [fields] only. *)
Definition passes_only (fields : list string) (lib : library) : Prop :=
  ∃ kwargs, setup_kwargs lib = Some kwargs
            ∧ ∀ k, is_Some (kwargs !! k) → k ∈ fields.

(** [mentions phrase s]: [phrase] occurs in [s]. *)
Fixpoint mentions (phrase s : string) : bool :=
  String.prefix phrase s
  || match s with
     | EmptyString => false
     | String _ s' => mentions phrase s'
     end.

(** A library in which [find_packages()] finds the one package and [setup]
    returns. *)
Definition pkgs0 : value := VList [VStr "insights_publisher"].

Definition lib0 : library := λ m n args kwargs,
  if bool_decide (m = "setuptools" ∧ n = "find_packages")
  then Some pkgs0
  else Some (VBool true).


Definition lib_empty : library := λ m n args kwargs,
  if bool_decide (m = "setuptools" ∧ n = "find_packages")
  then Some (VList [])
  else Some (VBool true).


(** ** What the run computes

    The value of an argument that is a constant, and the keyword arguments
    of the file with [pkgs] standing for the one argument that is not. *)
Fixpoint constant (e : expr) : option value :=
  match e with
  | Str s => Some (VStr s)
  | NameConstant b => Some (VBool b)
  | List elts => VList <$> mapM constant elts
  | _ => None
  end.

Definition received (pkgs : value) : list (string * value) :=
  (λ kw, (kw.1, default pkgs (constant kw.2))) <$> setup_keywords.

Definition imports_env : gmap string value :=
  <["find_packages" := VImported "setuptools" "find_packages"]>
    (<["setup" := VImported "setuptools" "setup"]> ∅).

Definition find_packages_event : event :=
  Called "setuptools" "find_packages" [] ∅.

Definition setup_event (pkgs : value) : event :=
  Called "setuptools" "setup" [] (list_to_map (received pkgs)).

(** ** The monad *)

Lemma bind_unit {A B : Type} (a : A) (k : A → M B) : mret a ≫= k = k a.
Proof. unfold mbind, M_bind, mret, M_ret. by destruct (k a). Qed.

Lemma bind_raised {A B : Type} (t : list event) (k : A → M B) :
  (t, None) ≫= k = (t, None).
Proof. reflexivity. Qed.

Lemma bind_returned {A B : Type} (t : list event) (a : A) (k : A → M B) :
  (t, Some a) ≫= k = (t ++ trace (k a), result (k a)).
Proof. unfold mbind, M_bind, trace, result. by destruct (k a). Qed.

(** ** The run of [setup.py] *)

Section Run.
Variable lib : library.

Lemma eval_call env func args keywords :
  eval lib env (Call func args keywords) =
    f ← eval lib env func;
    vs ← eval_all (eval lib env) args;
    kvs ← eval_all (λ kw, v ← eval lib env kw.2; mret (kw.1, v)) keywords;
    call lib f vs (list_to_map kvs).
Proof. reflexivity. Qed.

Lemma syntax_ok_setup_py : forallb stmt_ok setup_py = true.
Proof. vm_compute. reflexivity. Qed.

Lemma lookup_find_packages :
  imports_env !! "find_packages"
  = Some (VImported "setuptools" "find_packages").
Proof. reflexivity. Qed.

Lemma lookup_setup :
  imports_env !! "setup" = Some (VImported "setuptools" "setup").
Proof. reflexivity. Qed.

Lemma eval_find_packages_call :
  eval lib imports_env find_packages_call =
    ([find_packages_event], lib "setuptools" "find_packages" [] ∅).
Proof.
  unfold find_packages_call. rewrite eval_call. cbn [eval].
  rewrite lookup_find_packages, bind_unit. cbn [eval_all].
  by repeat rewrite bind_unit.
Qed.

Lemma eval_setup_keywords :
  eval_all (λ kw, v ← eval lib imports_env kw.2; mret (kw.1, v))
    setup_keywords
  = ([find_packages_event],
     received <$> lib "setuptools" "find_packages" [] ∅).
Proof.
  unfold setup_keywords. cbn [eval_all fst snd].
  fold find_packages_call. rewrite eval_find_packages_call.
  cbn [eval eval_all]. repeat rewrite bind_unit.
  by destruct (lib _ _ _ _).
Qed.

Lemma eval_setup_call :
  eval lib imports_env setup_call =
    match lib "setuptools" "find_packages" [] ∅ with
    | Some pkgs =>
        ([find_packages_event; setup_event pkgs],
         lib "setuptools" "setup" [] (list_to_map (received pkgs)))
    | None => ([find_packages_event], None)
    end.
Proof.
  unfold setup_call. rewrite eval_call, eval_setup_keywords.
  cbn [eval eval_all]. rewrite lookup_setup. repeat rewrite bind_unit.
  by destruct (lib _ _ _ _).
Qed.

(** Under every library: [find_packages()] is called first; if it raises,
    nothing else happens; otherwise [setup] is called with the keyword
    arguments of the file, and the run ends as [setup] ends. *)
Lemma run_setup_py :
  run lib setup_py =
    match lib "setuptools" "find_packages" [] ∅ with
    | Some pkgs =>
        ([find_packages_event; setup_event pkgs],
         lib "setuptools" "setup" [] (list_to_map (received pkgs))
           ≫= λ _, Some imports_env)
    | None => ([find_packages_event], None)
    end.
Proof.
  unfold run. rewrite syntax_ok_setup_py.
  unfold setup_py. cbn [exec_all exec foldl]. rewrite bind_unit.
  fold imports_env. rewrite eval_setup_call.
  destruct (lib _ _ _ _); [|done].
  by destruct (lib _ _ _ _).
Qed.

Lemma trace_run_setup_py pkgs :
  finds lib pkgs →
  trace (run lib setup_py) = [find_packages_event; setup_event pkgs].
Proof. intros Hfp. rewrite run_setup_py. red in Hfp. by rewrite Hfp. Qed.

Lemma setup_kwargs_received pkgs :
  finds lib pkgs → setup_kwargs lib = Some (list_to_map (received pkgs)).
Proof.
  intros Hfp. unfold setup_kwargs. by rewrite (trace_run_setup_py pkgs).
Qed.

End Run.


(** ** The statements of the specification *)

Ltac setup_receives Hfp :=
  eexists; split; [exact (setup_kwargs_received _ _ Hfp)|].

(** C1: the setup call declares exactly one script: its [scripts] argument
    is a one-element list whose element is the string
    ['insights_publisher/publisher'], as written and as [setup] receives
    it. *)
Theorem scripts_is_single_publisher (lib : library) (pkgs : value) :
  finds lib pkgs →
  keyword_arg "scripts" setup_call
    = Some (List [Str "insights_publisher/publisher"])
  ∧ ∃ kwargs, setup_kwargs lib = Some kwargs
      ∧ kwargs !! "scripts" = Some (VList [VStr "insights_publisher/publisher"]).
Proof.
  intros Hfp. split; [reflexivity|]. by setup_receives Hfp.
Qed.

Lemma scripts_is_single_publisher_witness :
  finds lib0 pkgs0
  ∧ keyword_arg "scripts" setup_call
    = Some (List [Str "insights_publisher/publisher"])
  ∧ ∃ kwargs, setup_kwargs lib0 = Some kwargs
      ∧ kwargs !! "scripts" = Some (VList [VStr "insights_publisher/publisher"]).
Proof.
  split; [reflexivity|].
  apply (scripts_is_single_publisher lib0 pkgs0). reflexivity.
Defined.

Lemma zip_safe_not_enumerated : "zip_safe" ∉ enumerated_fields.
Proof.
  unfold enumerated_fields. rewrite !not_elem_of_cons.
  repeat split; try done. apply not_elem_of_nil.
Qed.

(** C2, as stated, fails: [setup] also receives [zip_safe], which is not
    among the enumerated fields. *)
Lemma zip_safe_is_passed_too :
  (∃ kwargs, setup_kwargs lib0 = Some kwargs
     ∧ kwargs !! "zip_safe" = Some (VBool false))
  ∧ ("zip_safe" ∉ enumerated_fields)
  ∧ ¬ passes_only enumerated_fields lib0.
Proof.
  split; [|split; [apply zip_safe_not_enumerated|]].
  - by setup_receives (eq_refl : finds lib0 pkgs0).
  - intros (kwargs & Hrun & Honly).
    rewrite (setup_kwargs_received lib0 pkgs0 eq_refl) in Hrun.
    injection Hrun as <-. by apply zip_safe_not_enumerated, Honly.
Qed.

Lemma received_keywords (pkgs : value) (k : string) :
  is_Some ((list_to_map (received pkgs) : gmap string value) !! k)
  ↔ k ∈ enumerated_fields ∨ k = "zip_safe".
Proof.
  rewrite <- elem_of_dom, dom_list_to_map_L, elem_of_list_to_set.
  change ((received pkgs).*1)
    with [ "name"; "description"; "url"; "version"; "author"; "author_email";
           "license"; "packages"; "zip_safe"; "scripts" ].
  unfold enumerated_fields. rewrite !elem_of_cons, !elem_of_nil. tauto.
Qed.

(** C2 (amended): the keyword arguments [setup] receives are the enumerated
    fields (name, description, url, version, author, author_email, license,
    packages, scripts) and [zip_safe], and no other. *)
Theorem passes_enumerated_fields_and_zip_safe (lib : library) (pkgs : value) :
  finds lib pkgs →
  passes_only (enumerated_fields ++ ["zip_safe"]) lib
  ∧ ∃ kwargs, setup_kwargs lib = Some kwargs
      ∧ ∀ k, is_Some (kwargs !! k) ↔ k ∈ enumerated_fields ∨ k = "zip_safe".
Proof.
  intros Hfp. split.
  - setup_receives Hfp. intros k Hk%received_keywords.
    rewrite elem_of_app, list_elem_of_singleton. done.
  - setup_receives Hfp. intros k. apply received_keywords.
Qed.

Lemma passes_enumerated_fields_and_zip_safe_witness :
  finds lib0 pkgs0
  ∧ passes_only (enumerated_fields ++ ["zip_safe"]) lib0
  ∧ ∃ kwargs, setup_kwargs lib0 = Some kwargs
      ∧ ∀ k, is_Some (kwargs !! k) ↔ k ∈ enumerated_fields ∨ k = "zip_safe".
Proof.
  split; [reflexivity|].
  apply (passes_enumerated_fields_and_zip_safe lib0 pkgs0). reflexivity.
Defined.

(** C3: the package name given to the setup call is the string
    ['insights_publisher']. *)
Theorem name_is_insights_publisher (lib : library) (pkgs : value) :
  finds lib pkgs →
  keyword_arg "name" setup_call = Some (Str "insights_publisher")
  ∧ ∃ kwargs, setup_kwargs lib = Some kwargs
      ∧ kwargs !! "name" = Some (VStr "insights_publisher").
Proof.
  intros Hfp. split; [reflexivity|]. by setup_receives Hfp.
Qed.

Lemma name_is_insights_publisher_witness :
  finds lib0 pkgs0
  ∧ keyword_arg "name" setup_call = Some (Str "insights_publisher")
  ∧ ∃ kwargs, setup_kwargs lib0 = Some kwargs
      ∧ kwargs !! "name" = Some (VStr "insights_publisher").
Proof.
  split; [reflexivity|].
  apply (name_is_insights_publisher lib0 pkgs0). reflexivity.
Defined.

(** C4: the version given to the setup call is the string ['0.1.0']. *)
Theorem version_is_0_1_0 (lib : library) (pkgs : value) :
  finds lib pkgs →
  keyword_arg "version" setup_call = Some (Str "0.1.0")
  ∧ ∃ kwargs, setup_kwargs lib = Some kwargs
      ∧ kwargs !! "version" = Some (VStr "0.1.0").
Proof.
  intros Hfp. split; [reflexivity|]. by setup_receives Hfp.
Qed.

Lemma version_is_0_1_0_witness :
  finds lib0 pkgs0
  ∧ keyword_arg "version" setup_call = Some (Str "0.1.0")
  ∧ ∃ kwargs, setup_kwargs lib0 = Some kwargs
      ∧ kwargs !! "version" = Some (VStr "0.1.0").
Proof.
  split; [reflexivity|]. apply (version_is_0_1_0 lib0 pkgs0). reflexivity.
Defined.

(** C5: the license given to the setup call is ['MIT']. *)
Theorem license_is_MIT (lib : library) (pkgs : value) :
  finds lib pkgs →
  keyword_arg "license" setup_call = Some (Str "MIT")
  ∧ ∃ kwargs, setup_kwargs lib = Some kwargs
      ∧ kwargs !! "license" = Some (VStr "MIT").
Proof.
  intros Hfp. split; [reflexivity|]. by setup_receives Hfp.
Qed.

Lemma license_is_MIT_witness :
  finds lib0 pkgs0
  ∧ keyword_arg "license" setup_call = Some (Str "MIT")
  ∧ ∃ kwargs, setup_kwargs lib0 = Some kwargs
      ∧ kwargs !! "license" = Some (VStr "MIT").
Proof.
  split; [reflexivity|]. apply (license_is_MIT lib0 pkgs0). reflexivity.
Defined.

(** C6: the [packages] argument of the setup call is the result of calling
    [find_packages()] with no arguments; no list of packages is written out
    and no [install_requires] is passed. *)
Theorem packages_is_find_packages (lib : library) (pkgs : value) :
  finds lib pkgs →
  keyword_arg "packages" setup_call = Some (Call (Name "find_packages") [] [])
  ∧ keyword_arg "install_requires" setup_call = None
  ∧ ∃ kwargs,
      trace (run lib setup_py)
        = [ Called "setuptools" "find_packages" [] ∅;
            Called "setuptools" "setup" [] kwargs ]
      ∧ setup_kwargs lib = Some kwargs
      ∧ kwargs !! "packages" = Some pkgs
      ∧ kwargs !! "install_requires" = None.
Proof.
  intros Hfp. do 2 (split; [reflexivity|]).
  eexists. split; [exact (trace_run_setup_py _ _ Hfp)|].
  split; [exact (setup_kwargs_received _ _ Hfp)|]. done.
Qed.

Lemma packages_is_find_packages_witness :
  finds lib0 pkgs0
  ∧ keyword_arg "packages" setup_call = Some (Call (Name "find_packages") [] [])
  ∧ keyword_arg "install_requires" setup_call = None
  ∧ ∃ kwargs,
      trace (run lib0 setup_py)
        = [ Called "setuptools" "find_packages" [] ∅;
            Called "setuptools" "setup" [] kwargs ]
      ∧ setup_kwargs lib0 = Some kwargs
      ∧ kwargs !! "packages" = Some pkgs0
      ∧ kwargs !! "install_requires" = None.
Proof.
  split; [reflexivity|].
  apply (packages_is_find_packages lib0 pkgs0). reflexivity.
Defined.

(** C7: the description given to the setup call is the string ['A package
    to streamline publication workflows for Knowledge Repo and tie published
    work to GitHub commits.']; it speaks of streamlining publication
    workflows for Knowledge Repo and of tying published work to commits. *)
Theorem description_is_exact (lib : library) (pkgs : value) :
  finds lib pkgs →
  ∃ kwargs d,
    setup_kwargs lib = Some kwargs
    ∧ kwargs !! "description" = Some (VStr d)
    ∧ keyword_arg "description" setup_call = Some (Str d)
    ∧ d = "A package to streamline publication workflows for Knowledge Repo and tie published work to GitHub commits."
    ∧ mentions "streamline publication workflows for Knowledge Repo" d = true
    ∧ mentions "tie published work to GitHub commits" d = true.
Proof.
  intros Hfp. eexists _, _.
  split; [exact (setup_kwargs_received _ _ Hfp)|]. by repeat split.
Qed.

Lemma description_is_exact_witness :
  finds lib0 pkgs0
  ∧ ∃ kwargs d,
    setup_kwargs lib0 = Some kwargs
    ∧ kwargs !! "description" = Some (VStr d)
    ∧ keyword_arg "description" setup_call = Some (Str d)
    ∧ d = "A package to streamline publication workflows for Knowledge Repo and tie published work to GitHub commits."
    ∧ mentions "streamline publication workflows for Knowledge Repo" d = true
    ∧ mentions "tie published work to GitHub commits" d = true.
Proof.
  split; [reflexivity|]. apply (description_is_exact lib0 pkgs0). reflexivity.
Defined.

(** C8: no keyword argument of the setup call is an [entry_points] or
    [console_scripts] declaration and none reads the environment; the file
    imports from setuptools only and calls into setuptools only; the one
    executable declared is the single [scripts] entry. *)
Theorem no_entry_points_no_environment (lib : library) (pkgs : value) :
  finds lib pkgs →
  Forall (λ kw, kw.1 ≠ "entry_points" ∧ kw.1 ≠ "console_scripts"
                ∧ ¬ reads_environment kw.2) setup_keywords
  ∧ imported_modules setup_py = ["setuptools"]
  ∧ names setup_call = ["setup"; "find_packages"]
  ∧ Forall (λ ev, ev_module ev = "setuptools") (trace (run lib setup_py))
  ∧ ∃ kwargs, setup_kwargs lib = Some kwargs
      ∧ kwargs !! "entry_points" = None
      ∧ kwargs !! "console_scripts" = None
      ∧ kwargs !! "scripts" = Some (VList [VStr "insights_publisher/publisher"]).
Proof.
  intros Hfp. split; [by apply (bool_decide_unpack _)|].
  do 2 (split; [reflexivity|]). split.
  - rewrite (trace_run_setup_py _ _ Hfp). by repeat constructor.
  - by setup_receives Hfp.
Qed.

Lemma no_entry_points_no_environment_witness :
  finds lib0 pkgs0
  ∧ Forall (λ kw, kw.1 ≠ "entry_points" ∧ kw.1 ≠ "console_scripts"
                  ∧ ¬ reads_environment kw.2) setup_keywords
  ∧ imported_modules setup_py = ["setuptools"]
  ∧ names setup_call = ["setup"; "find_packages"]
  ∧ Forall (λ ev, ev_module ev = "setuptools") (trace (run lib0 setup_py))
  ∧ ∃ kwargs, setup_kwargs lib0 = Some kwargs
      ∧ kwargs !! "entry_points" = None
      ∧ kwargs !! "console_scripts" = None
      ∧ kwargs !! "scripts" = Some (VList [VStr "insights_publisher/publisher"]).
Proof.
  split; [reflexivity|].
  apply (no_entry_points_no_environment lib0 pkgs0). reflexivity.
Defined.

(** C9: the setup call sets [zip_safe] to [False], a field that is not
    among those the specification enumerates. *)
Theorem zip_safe_is_False (lib : library) (pkgs : value) :
  finds lib pkgs →
  keyword_arg "zip_safe" setup_call = Some (NameConstant false)
  ∧ ("zip_safe" ∉ enumerated_fields)
  ∧ ∃ kwargs, setup_kwargs lib = Some kwargs
      ∧ kwargs !! "zip_safe" = Some (VBool false).
Proof.
  intros Hfp. split; [reflexivity|]. split.
  - apply zip_safe_not_enumerated.
  - by setup_receives Hfp.
Qed.

Lemma zip_safe_is_False_witness :
  finds lib0 pkgs0
  ∧ keyword_arg "zip_safe" setup_call = Some (NameConstant false)
  ∧ ("zip_safe" ∉ enumerated_fields)
  ∧ ∃ kwargs, setup_kwargs lib0 = Some kwargs
      ∧ kwargs !! "zip_safe" = Some (VBool false).
Proof.
  split; [reflexivity|]. apply (zip_safe_is_False lib0 pkgs0). reflexivity.
Defined.

(** C10: the [url] argument of the setup call is the string
    ['https://github.com/CPapadim/insights_publisher']. *)
Theorem url_is_github_insights_publisher (lib : library) (pkgs : value) :
  finds lib pkgs →
  keyword_arg "url" setup_call
    = Some (Str "https://github.com/CPapadim/insights_publisher")
  ∧ ∃ kwargs, setup_kwargs lib = Some kwargs
      ∧ kwargs !! "url"
        = Some (VStr "https://github.com/CPapadim/insights_publisher").
Proof.
  intros Hfp. split; [reflexivity|]. by setup_receives Hfp.
Qed.

Lemma url_is_github_insights_publisher_witness :
  finds lib0 pkgs0
  ∧ keyword_arg "url" setup_call
    = Some (Str "https://github.com/CPapadim/insights_publisher")
  ∧ ∃ kwargs, setup_kwargs lib0 = Some kwargs
      ∧ kwargs !! "url"
        = Some (VStr "https://github.com/CPapadim/insights_publisher").
Proof.
  split; [reflexivity|].
  apply (url_is_github_insights_publisher lib0 pkgs0). reflexivity.
Defined.

(** ** Further properties of the file *)

(** X1: the author given to the setup call is ['Charalampos Papadimitriou']
    and the author's e-mail is ['papadimitriou.c@gmail.com']. *)
Theorem author_and_author_email (lib : library) (pkgs : value) :
  finds lib pkgs →
  keyword_arg "author" setup_call = Some (Str "Charalampos Papadimitriou")
  ∧ keyword_arg "author_email" setup_call
    = Some (Str "papadimitriou.c@gmail.com")
  ∧ ∃ kwargs, setup_kwargs lib = Some kwargs
      ∧ kwargs !! "author" = Some (VStr "Charalampos Papadimitriou")
      ∧ kwargs !! "author_email" = Some (VStr "papadimitriou.c@gmail.com").
Proof.
  intros Hfp. do 2 (split; [reflexivity|]). by setup_receives Hfp.
Qed.

Lemma author_and_author_email_witness :
  finds lib0 pkgs0
  ∧ keyword_arg "author" setup_call = Some (Str "Charalampos Papadimitriou")
  ∧ keyword_arg "author_email" setup_call
    = Some (Str "papadimitriou.c@gmail.com")
  ∧ ∃ kwargs, setup_kwargs lib0 = Some kwargs
      ∧ kwargs !! "author" = Some (VStr "Charalampos Papadimitriou")
      ∧ kwargs !! "author_email" = Some (VStr "papadimitriou.c@gmail.com").
Proof.
  split; [reflexivity|].
  apply (author_and_author_email lib0 pkgs0). reflexivity.
Defined.






Lemma received_packages (pkgs : value) :
  (list_to_map (received pkgs) : gmap string value) !! "packages" = Some pkgs.
Proof. reflexivity. Qed.

Lemma received_elsewhere (pkgs pkgs' : value) (k : string) :
  k ≠ "packages" →
  (list_to_map (received pkgs) : gmap string value) !! k
  = (list_to_map (received pkgs') : gmap string value) !! k.
Proof.
  intros Hk. unfold received, setup_keywords.
  cbn [fmap list_fmap list_to_map foldr fst snd constant default uncurry].
  rewrite !(lookup_insert _ _ k). by repeat case_decide.
Qed.

(** X5: the library bears on what [setup] receives through [packages]
    alone: under two libraries in which [find_packages()] returns, [setup]
    gets the same value for every other keyword, and the same keyword
    arguments altogether when [find_packages()] returns the same. *)
Theorem only_packages_depends_on_library
    (lib lib' : library) (pkgs pkgs' : value) :
  finds lib pkgs → finds lib' pkgs' →
  ∃ kwargs kwargs',
    setup_kwargs lib = Some kwargs ∧ setup_kwargs lib' = Some kwargs'
    ∧ kwargs !! "packages" = Some pkgs ∧ kwargs' !! "packages" = Some pkgs'
    ∧ (∀ k, k ≠ "packages" → kwargs !! k = kwargs' !! k)
    ∧ (pkgs = pkgs' → kwargs = kwargs').
Proof.
  intros Hfp Hfp'. eexists _, _.
  split; [exact (setup_kwargs_received _ _ Hfp)|].
  split; [exact (setup_kwargs_received _ _ Hfp')|].
  do 2 (split; [apply received_packages|]). split.
  - intros k. apply received_elsewhere.
  - by intros ->.
Qed.

Lemma only_packages_depends_on_library_witness :
  finds lib0 pkgs0 ∧ finds lib_empty (VList [])
  ∧ ∃ kwargs kwargs',
    setup_kwargs lib0 = Some kwargs ∧ setup_kwargs lib_empty = Some kwargs'
    ∧ kwargs !! "packages" = Some pkgs0
    ∧ kwargs' !! "packages" = Some (VList [])
    ∧ (∀ k, k ≠ "packages" → kwargs !! k = kwargs' !! k)
    ∧ (pkgs0 = VList [] → kwargs = kwargs').
Proof.
  do 2 (split; [reflexivity|]).
  apply (only_packages_depends_on_library lib0 lib_empty pkgs0 (VList []));
    reflexivity.
Defined.

(** X6: no keyword of the setup call is written twice, so the file compiles
    and each of the ten keywords written reaches [setup]: it receives as many
    keyword arguments as the call has. *)
Theorem every_keyword_reaches_setup (lib : library) (pkgs : value) :
  finds lib pkgs →
  NoDup (setup_keywords.*1)
  ∧ forallb stmt_ok setup_py = true
  ∧ ∃ kwargs, setup_kwargs lib = Some kwargs
      ∧ size kwargs = length setup_keywords
      ∧ Forall (λ kw, is_Some (kwargs !! kw.1)) setup_keywords.
Proof.
  intros Hfp.
  assert (Hnodup : NoDup (setup_keywords.*1)) by by apply (bool_decide_unpack _).
  split; [done|]. split; [apply syntax_ok_setup_py|].
  setup_receives Hfp. split.
  - rewrite map_size_list_to_map; [by unfold received; rewrite length_fmap|].
    by unfold received; rewrite <- list_fmap_compose.
  - apply Forall_forall. intros [k e] Hin. apply received_keywords.
    apply (list_elem_of_fmap_2 fst) in Hin. cbn in Hin.
    revert Hin. unfold enumerated_fields.
    rewrite !elem_of_cons, !elem_of_nil. tauto.
Qed.

Lemma every_keyword_reaches_setup_witness :
  finds lib0 pkgs0
  ∧ NoDup (setup_keywords.*1)
  ∧ forallb stmt_ok setup_py = true
  ∧ ∃ kwargs, setup_kwargs lib0 = Some kwargs
      ∧ size kwargs = length setup_keywords
      ∧ Forall (λ kw, is_Some (kwargs !! kw.1)) setup_keywords.
Proof.
  split; [reflexivity|].
  apply (every_keyword_reaches_setup lib0 pkgs0). reflexivity.
Defined.
